(** * pyproject_toml_to_environment_file: environment yaml files from pyproject.toml

    A shallow embedding of [src/pyproject_toml_to_environment_file.py] and the
    properties of its three operations: [_load_dependencies] (pure lookups in
    the parsed project table), [_write_dependencies] (one yaml file per call)
    and [pyproject_toml_to_environment_file] (the orchestrator).

    Python dictionaries keep insertion order, and the orchestrator iterates
    over it, so a dictionary is an association list here.  The file system and
    the console are an explicit [world] threaded through a state-and-exception
    monad in which the state survives a raised exception, as it does in
    Python. *)

From Stdlib Require Import ZArith Ascii String.
From stdpp Require Import gmap strings list fin_maps pretty.

Local Open Scope string_scope.
Local Set Warnings "-register-all".

(** ** Values of a parsed TOML document *)

(** The part of the TOML data model that dependency tables are made of:
    strings, integers, booleans, arrays and tables. *)
Inductive value : Type :=
| VStr (s : string)
| VInt (n : Z)
| VBool (b : bool)
| VList (l : list value)
| VDict (d : list (string * value)).

(** A Python [dict] with string keys, in insertion order. *)
Abbreviation dict := (list (string * value)).

(** The exceptions the program can raise or let through. *)
Inductive exn : Type :=
| ValueError (msg : string)
| TypeError
| KeyError (key : string)
| IndexError
| AttributeError
| FileNotFoundError (path : string)
| FileExistsError (path : string)
| TOMLDecodeError.

(** The outcome of a call: a returned value or a raised exception. *)
Inductive outcome (A : Type) : Type :=
| Return (a : A)
| Raise (e : exn).
Arguments Return {A} a.
Arguments Raise {A} e.

Definition obind {A B} (o : outcome A) (k : A -> outcome B) : outcome B :=
  match o with
  | Return a => k a
  | Raise e => Raise e
  end.

(** ** Python built-ins on strings and dictionaries *)

(** [s.startswith(p)] *)
Fixpoint startswith (s p : string) : bool :=
  match p, s with
  | EmptyString, _ => true
  | String _ _, EmptyString => false
  | String c p', String d s' => Ascii.eqb c d && startswith s' p'
  end.

(** [s.endswith(suf)] *)
Fixpoint endswith (s suf : string) : bool :=
  if String.eqb s suf then true
  else match s with
       | EmptyString => false
       | String _ s' => endswith s' suf
       end.

(** [sub in s] for two strings: substring test. *)
Fixpoint str_contains (s sub : string) : bool :=
  startswith s sub
  || match s with
     | EmptyString => false
     | String _ s' => str_contains s' sub
     end.

(** [d.get(k)]: the value stored under [k], if any. *)
Fixpoint dict_get (k : string) (d : dict) : option value :=
  match d with
  | [] => None
  | (k', v) :: d' => if String.eqb k k' then Some v else dict_get k d'
  end.

(** [k in d] for a dictionary [d]. *)
Definition dict_contains (k : string) (d : dict) : bool :=
  match dict_get k d with
  | Some _ => true
  | None => false
  end.

(** [d[k]] for a dictionary [d]. *)
Definition dict_getitem (d : dict) (k : string) : outcome value :=
  match dict_get k d with
  | Some v => Return v
  | None => Raise (KeyError k)
  end.

(** [[*d.keys()]] *)
Definition dict_keys (d : dict) : list string := map fst d.

(** [k == v] for a string [k] and any value [v]. *)
Definition str_eq_value (k : string) (v : value) : bool :=
  match v with
  | VStr s => String.eqb k s
  | _ => false
  end.

(** [k in v] for a string [k] and a value [v] of any type: key membership in
    a table, element membership in an array, substring test in a string, and
    a [TypeError] on a scalar that is not iterable. *)
Definition py_in (k : string) (v : value) : outcome bool :=
  match v with
  | VDict d => Return (dict_contains k d)
  | VList l => Return (existsb (str_eq_value k) l)
  | VStr s => Return (str_contains s k)
  | VInt _ | VBool _ => Raise TypeError
  end.

(** [v[k]] for a string [k] and a value [v] of any type: only a table can be
    indexed by a string. *)
Definition py_getitem (v : value) (k : string) : outcome value :=
  match v with
  | VDict d => dict_getitem d k
  | _ => Raise TypeError
  end.

(** ** Manifest reader *)

Definition _load_dependencies (toml_project_dict : dict) (dep_type : string)
  : outcome value :=
  let dep_table :=
    if String.eqb dep_type "dependencies" then "dependencies"
    else "optional-dependencies" in
  if negb (dict_contains dep_table toml_project_dict) then
    Raise (ValueError
      "pyproject.toml's project table does not include {dep_table} sub-table.")
  else if String.eqb dep_type "dependencies" then
    dict_getitem toml_project_dict dep_type
  else
    obind (dict_getitem toml_project_dict dep_table) (fun sub_dep_table =>
    obind (py_in dep_type sub_dep_table) (fun found =>
    if negb found then Raise (ValueError "Something.")
    else py_getitem sub_dep_table dep_type)).

(** ** The world: file system and console *)

(** Paths are the strings the program builds, and the file system is a store
    keyed by them: the directories that exist and the content of every file.
    The store accepts every path: refusals of the operating system (access
    rights, a full disk, a file name the platform rejects) are not modelled.
    [stdout] is what has been printed and [written] the files that were
    opened for writing with the text put in them, both oldest first. *)
Record world : Type := World {
  dirs : gset string;
  files : gmap string string;
  stdout : list string;
  written : list (string * string)
}.

(** A computation reads and changes the world and returns or raises; the
    world it leaves behind is kept in both cases. *)
Definition M (A : Type) : Type := world -> outcome A * world.

Definition ret {A} (a : A) : M A := fun w => (Return a, w).

Definition raise {A} (e : exn) : M A := fun w => (Raise e, w).

Definition bind {A B} (m : M A) (k : A -> M B) : M B :=
  fun w =>
    match m w with
    | (Return a, w') => k a w'
    | (Raise e, w') => (Raise e, w')
    end.

(** A pure call inside a computation. *)
Definition lift {A} (o : outcome A) : M A := fun w => (o, w).

Declare Scope py_scope.
Delimit Scope py_scope with py.
Notation "x <- c ;; k" := (bind c (fun x => k))
  (at level 100, c at next level, right associativity) : py_scope.
Notation "c ;; k" := (bind c (fun _ => k))
  (at level 100, right associativity) : py_scope.

(** [for x in xs: body(x)] *)
Fixpoint for_each {A} (xs : list A) (body : A -> M unit) : M unit :=
  match xs with
  | [] => ret tt
  | x :: xs' => bind (body x) (fun _ => for_each xs' body)
  end.

(** [os.path.exists(p)] *)
Definition os_path_exists (p : string) : M bool :=
  fun w => (Return (bool_decide (p ∈ dirs w) || bool_decide (p ∈ dom (files w))), w).

(** [os.makedirs(p)]: refuses a path that exists already. *)
Definition os_makedirs (p : string) : M unit :=
  fun w =>
    if bool_decide (p ∈ dirs w) || bool_decide (p ∈ dom (files w))
    then (Raise (FileExistsError p), w)
    else (Return tt, World ({[p]} ∪ dirs w) (files w) (stdout w) (written w)).

(** [with open(p, "w") as file: file.write(content)]: creates the file or
    replaces its content. *)
Definition write_file (p content : string) : M unit :=
  fun w =>
    (Return tt,
     World (dirs w) (<[p := content]> (files w)) (stdout w)
           (written w ++ [(p, content)])).

(** [with open(p, "rb") as f: f.read()] *)
Definition read_file (p : string) : M string :=
  fun w =>
    match files w !! p with
    | Some content => (Return content, w)
    | None => (Raise (FileNotFoundError p), w)
    end.

(** [print(line)] *)
Definition print (line : string) : M unit :=
  fun w => (Return tt, World (dirs w) (files w) (stdout w ++ [line]) (written w)).

(** ** Library functions the program calls *)

(** The parser, the yaml emitter and Python's [repr] are not part of the
    program; it is verified for any of them. *)
Class Libraries : Type := {
  (** [tomli.load] on the content of a file; [None] when the content is not
      valid TOML ([tomli.TOMLDecodeError]).  A TOML document is a table. *)
  tomli_loads : string -> option dict;
  (** [yaml.dump(v, file)]: the text written to the file. *)
  yaml_dump : value -> string;
  (** [f"{v}"] for a value [v]. *)
  repr : value -> string
}.

(** [f"{type(v)}"] *)
Definition type_repr (v : value) : string :=
  match v with
  | VStr _ => "<class 'str'>"
  | VInt _ => "<class 'int'>"
  | VBool _ => "<class 'bool'>"
  | VList _ => "<class 'list'>"
  | VDict _ => "<class 'dict'>"
  end.

(** [xs[0]] *)
Definition list_first {A} (xs : list A) : outcome A :=
  match xs with
  | x :: _ => Return x
  | [] => Raise IndexError
  end.

(** [v.keys()]: only a table has keys. *)
Definition py_keys (v : value) : outcome (list string) :=
  match v with
  | VDict d => Return (dict_keys d)
  | _ => Raise AttributeError
  end.

(** The path with a trailing separator, as both functions normalise it. *)
Definition with_sep (path : string) : string :=
  if negb (endswith path "\" || endswith path "/") then path +:+ "/" else path.

(** The record written to a file: [{"name": g, "dependencies": l}]. *)
Definition dep_record (g : string) (l : value) : value :=
  VDict [("name", VStr g); ("dependencies", l)].

Section Program.
Context `{Libraries}.
Local Open Scope py_scope.

(** ** Environment writer *)

Definition _write_dependencies (deps : dict) (output_path : string)
    (verbose : bool) : M value :=
  let output_path := with_sep output_path in
  present <- os_path_exists output_path ;;
  (if negb present then os_makedirs output_path else ret tt) ;;
  if Nat.eqb (length deps) 0 then
    raise (ValueError "Empty dependency dictionary found.")
  else
    dep_name <- lift (list_first (dict_keys deps)) ;;
    dependencies <- lift (dict_getitem deps dep_name) ;;
    let dep_yaml := dep_record dep_name dependencies in
    write_file (output_path +:+ dep_name +:+ ".yaml") (yaml_dump dep_yaml) ;;
    (if verbose then
       print ("Dependency environment created at "
              +:+ output_path +:+ dep_name +:+ ".yaml "
              +:+ "with data: " +:+ repr dep_yaml +:+ ".")
     else ret tt) ;;
    ret dep_yaml.

(** ** Orchestrator *)

(** Lines 171-179: the document must have a [project] key holding a table. *)
Definition project_table (toml_dict : dict) : outcome dict :=
  if negb (dict_contains "project" toml_dict) then
    Raise (ValueError "Expected pyproject.toml to include a project table.")
  else
    obind (dict_getitem toml_dict "project") (fun project =>
    match project with
    | VDict p => Return p
    | _ =>
        Raise (ValueError
          ("Expected pyproject.toml's project table to return dict, "
           +:+ "but found " +:+ type_repr project +:+ "."))
    end).

(** [tomli.load(f)] *)
Definition tomli_load (content : string) : outcome dict :=
  match tomli_loads content with
  | Some d => Return d
  | None => Raise TOMLDecodeError
  end.

Definition pyproject_toml_to_environment_file
    (input_path output_path dep_type : string) (verbose : bool) : M unit :=
  let output_path := with_sep output_path in
  let input_path := with_sep input_path in
  content <- read_file (input_path +:+ "pyproject.toml") ;;
  toml_dict <- lift (tomli_load content) ;;
  project <- lift (project_table toml_dict) ;;
  if String.eqb dep_type "all" then
    (if dict_contains "dependencies" project then
       deps <- lift (_load_dependencies project "dependencies") ;;
       _write_dependencies [("dependencies", deps)] output_path verbose ;;
       ret tt
     else ret tt) ;;
    (if dict_contains "optional-dependencies" project then
       optional <- lift (dict_getitem project "optional-dependencies") ;;
       keys <- lift (py_keys optional) ;;
       for_each keys (fun optional_dep =>
         deps <- lift (_load_dependencies project optional_dep) ;;
         _write_dependencies [(optional_dep, deps)] output_path false ;;
         ret tt)
     else ret tt)
  else
    deps <- lift (_load_dependencies project dep_type) ;;
    _write_dependencies [(dep_type, deps)] output_path false ;;
    ret tt.

End Program.

(** ** Equality of values *)



(** ** A sample library, to run the program *)

Module Sample.

(** The line feed. *)
Definition nl : string := String "010"%char "".

(** Python's rendering of a value, for strings without quotes in them. *)
Fixpoint show (v : value) : string :=
  match v with
  | VStr s => "'" +:+ s +:+ "'"
  | VInt n => pretty n
  | VBool true => "True"
  | VBool false => "False"
  | VList l =>
      "[" +:+ (fix items (l : list value) : string :=
                 match l with
                 | [] => ""
                 | [x] => show x
                 | x :: l' => show x +:+ ", " +:+ items l'
                 end) l +:+ "]"
  | VDict d =>
      "{" +:+ (fix items (d : dict) : string :=
                 match d with
                 | [] => ""
                 | [(k, x)] => "'" +:+ k +:+ "': " +:+ show x
                 | (k, x) :: d' => "'" +:+ k +:+ "': " +:+ show x +:+ ", " +:+ items d'
                 end) d +:+ "}"
  end.

(** Keys in increasing order, as [yaml.dump] sorts them. *)
Fixpoint insert_sorted (e : string * value) (d : dict) : dict :=
  match d with
  | [] => [e]
  | e' :: d' =>
      if String.leb (fst e) (fst e') then e :: d else e' :: insert_sorted e d'
  end.

Definition sort_keys (d : dict) : dict := foldr insert_sorted [] d.

(** A scalar or a nested collection on one line. *)
Definition emit_inline (v : value) : string :=
  match v with
  | VStr s => s
  | _ => show v
  end.

Definition emit_entry (e : string * value) : string :=
  match e with
  | (k, VList l) =>
      k +:+ ":" +:+ nl
        +:+ String.concat "" (map (fun x => "- " +:+ emit_inline x +:+ nl) l)
  | (k, v) => k +:+ ": " +:+ emit_inline v +:+ nl
  end.

(** Block style for a mapping of plain strings and of sequences of plain
    strings, which is what the program writes. *)
Definition emit (v : value) : string :=
  match v with
  | VDict d => String.concat "" (map emit_entry (sort_keys d))
  | _ => emit_inline v +:+ nl
  end.





(** A manifest with a required list and two optional groups. *)
Definition manifest_text : string :=
  "[project]
name = 'demo'
dependencies = ['numpy', 'pandas']

[project.optional-dependencies]
test = ['pytest']
docs = ['sphinx']
".

Definition manifest_project : dict :=
  [("name", VStr "demo");
   ("dependencies", VList [VStr "numpy"; VStr "pandas"]);
   ("optional-dependencies",
    VDict [("test", VList [VStr "pytest"]); ("docs", VList [VStr "sphinx"])])].

Definition manifest : dict := [("project", VDict manifest_project)].

(** A document whose [project] key is not a table. *)
Definition flat_text : string := "project = 'demo'
".

Definition flat : dict := [("project", VStr "demo")].

(** A document without a [project] key. *)
Definition other_text : string := "[tool]
name = 'demo'
".

Definition other : dict := [("tool", VDict [("name", VStr "demo")])].

(** A manifest with an optional group that is named [dependencies]. *)
Definition clash_text : string :=
  "[project]
dependencies = ['numpy']

[project.optional-dependencies]
dependencies = ['pytest']
".

Definition clash_project : dict :=
  [("dependencies", VList [VStr "numpy"]);
   ("optional-dependencies", VDict [("dependencies", VList [VStr "pytest"])])].

Definition clash : dict := [("project", VDict clash_project)].

(** The parser on the sample documents; any other text is refused. *)
Definition loads (text : string) : option dict :=
  if String.eqb text manifest_text then Some manifest
  else if String.eqb text flat_text then Some flat
  else if String.eqb text other_text then Some other
  else if String.eqb text clash_text then Some clash
  else None.

#[export] Instance libraries : Libraries :=
  {| tomli_loads := loads; yaml_dump := emit; repr := show |}.

(** Four directories, one for each sample document, and nothing else. *)
Definition start : world :=
  World {["proj/"; "flat/"; "other/"; "clash/"]}
        {["proj/pyproject.toml" := manifest_text;
          "flat/pyproject.toml" := flat_text;
          "other/pyproject.toml" := other_text;
          "clash/pyproject.toml" := clash_text]}
        [] [].

End Sample.


(** ** Vocabulary of the statements *)

Section Vocabulary.
Context `{Libraries}.

(** The file a group is written to. *)
Definition group_path (output_path g : string) : string :=
  with_sep output_path +:+ g +:+ ".yaml".

(** The text of the file of a group. *)
Definition group_text (g : string) (l : value) : string :=
  yaml_dump (dep_record g l).

(** One write, as the log of the world records it. *)
Definition group_file (output_path : string) (e : string * value)
  : string * string :=
  (group_path output_path e.1, group_text e.1 e.2).

(** The line printed after a verbose write. *)
Definition status_line (output_path g : string) (l : value) : string :=
  "Dependency environment created at "
  +:+ with_sep output_path +:+ g +:+ ".yaml "
  +:+ "with data: " +:+ repr (dep_record g l) +:+ ".".

(** The required group of a project table, if it has one. *)
Definition required_group (project : dict) : dict :=
  match dict_get "dependencies" project with
  | Some l => [("dependencies", l)]
  | None => []
  end.


(** A project table is well formed when its [optional-dependencies] key, if
    present, holds a table; the keys of a table are distinct. *)
Definition well_formed (project : dict) : Prop :=
  match dict_get "optional-dependencies" project with
  | Some (VDict od) => NoDup (dict_keys od)
  | Some _ => False
  | None => True
  end.

#[global] Instance well_formed_dec (project : dict) :
  Decision (well_formed project).
Proof.
  unfold well_formed.
  destruct (dict_get "optional-dependencies" project) as [[]|]; apply _.
Defined.


(** Does the path exist in the world? *)
Definition exists_in (p : string) (w : world) : bool :=
  bool_decide (p ∈ dirs w) || bool_decide (p ∈ dom (files w)).

(** The world with the directory [p], created when nothing is at [p]. *)
Definition ensure_dir (p : string) (w : world) : world :=
  if exists_in p w then w
  else World ({[p]} ∪ dirs w) (files w) (stdout w) (written w).

(** The world after the group [g] with list [l] has been written. *)
Definition after_write (output_path g : string) (l : value) (verbose : bool)
    (w : world) : world :=
  let w1 := ensure_dir (with_sep output_path) w in
  World (dirs w1)
        (<[group_path output_path g := group_text g l]> (files w1))
        (if verbose then stdout w1 ++ [status_line output_path g l] else stdout w1)
        (written w1 ++ [group_file output_path (g, l)]).

(** The input of a run: the manifest file is there and parses to [toml]. *)
Definition manifest_at (input_path : string) (toml : dict) (w : world) : Prop :=
  exists content,
    files w !! (with_sep input_path +:+ "pyproject.toml") = Some content
    /\ tomli_loads content = Some toml.

End Vocabulary.

(** ** More sample documents: edge cases *)

Module Cases.

(** A project table with no dependency key at all. *)
Definition bare_text : string :=
  "[project]
name = 'demo'
".

Definition bare_project : dict := [("name", VStr "demo")].

Definition bare : dict := [("project", VDict bare_project)].

(** A project table whose [optional-dependencies] key is not a table. *)
Definition odd_text : string :=
  "[project]
dependencies = ['numpy']
optional-dependencies = 'none'
".

Definition odd_project : dict :=
  [("dependencies", VList [VStr "numpy"]);
   ("optional-dependencies", VStr "none")].

Definition odd : dict := [("project", VDict odd_project)].

(** No required list, and an optional group named [dependencies] between
    two others. *)
Definition late_text : string :=
  "[project.optional-dependencies]
test = ['pytest']
dependencies = ['numpy']
docs = ['sphinx']
".

Definition late_project : dict :=
  [("optional-dependencies",
    VDict [("test", VList [VStr "pytest"]);
           ("dependencies", VList [VStr "numpy"]);
           ("docs", VList [VStr "sphinx"])])].

Definition late : dict := [("project", VDict late_project)].

(** A text that is not TOML. *)
Definition broken_text : string := "[project
".

Definition loads (text : string) : option dict :=
  if String.eqb text bare_text then Some bare
  else if String.eqb text odd_text then Some odd
  else if String.eqb text late_text then Some late
  else None.

Definition libraries : Libraries :=
  {| tomli_loads := loads; yaml_dump := Sample.emit; repr := Sample.show |}.

Definition start : world :=
  World {["bare/"; "odd/"; "late/"; "broken/"]}
        {["bare/pyproject.toml" := bare_text;
          "odd/pyproject.toml" := odd_text;
          "late/pyproject.toml" := late_text;
          "broken/pyproject.toml" := broken_text]}
        [] [].

End Cases.

(** ** Vocabulary of the further statements *)

Section Observations.
Context `{Libraries}.

(** The file the orchestrator reads. *)
Definition manifest_path (input_path : string) : string :=
  with_sep input_path +:+ "pyproject.toml".

(** Two worlds with the same file system and the same log of writes; the
    console may differ. *)
Definition same_disk (w1 w2 : world) : Prop :=
  dirs w1 = dirs w2 /\ files w1 = files w2 /\ written w1 = written w2.

(** Every write of the list is the write of the record of some group to the
    file of that group under [output_path]. *)
Definition group_writes (output_path : string) (new : list (string * string))
  : Prop :=
  Forall (fun f => exists g l, f = group_file output_path (g, l)) new.

(** From [w] to [w'] the only writes were writes of groups under
    [output_path], and every other file is as it was. *)
Definition wrote_groups_only (output_path : string) (w w' : world) : Prop :=
  (exists new,
     written w' = (written w ++ new)%list /\ group_writes output_path new)
  /\ forall p, (forall g, p <> group_path output_path g) ->
       files w' !! p = files w !! p.

(** Lines 181-195 of the orchestrator on their own: what is done with the
    project table once it is loaded.  [run_cases] below shows that the
    orchestrator is the three loading steps followed by this. *)
Definition write_requested (project : dict) (output_path dep_type : string)
    (verbose : bool) : M unit :=
  (if String.eqb dep_type "all" then
     (if dict_contains "dependencies" project then
        deps <- lift (_load_dependencies project "dependencies") ;;
        _write_dependencies [("dependencies", deps)] output_path verbose ;;
        ret tt
      else ret tt) ;;
     (if dict_contains "optional-dependencies" project then
        optional <- lift (dict_getitem project "optional-dependencies") ;;
        keys <- lift (py_keys optional) ;;
        for_each keys (fun optional_dep =>
          deps <- lift (_load_dependencies project optional_dep) ;;
          _write_dependencies [(optional_dep, deps)] output_path false ;;
          ret tt)
      else ret tt)
   else
     deps <- lift (_load_dependencies project dep_type) ;;
     _write_dependencies [(dep_type, deps)] output_path false ;;
     ret tt)%py.

End Observations.

(** * Properties *)

(** ** Strings, paths and dictionaries *)

Lemma endswith_refl (s : string) : endswith s s = true.
Proof. destruct s; cbn [endswith]; by rewrite String.eqb_refl. Qed.

Lemma endswith_app (p suf : string) : endswith (p +:+ suf) suf = true.
Proof.
  induction p as [|c p IH].
  - apply endswith_refl.
  - change (String c p +:+ suf) with (String c (p +:+ suf)).
    cbn [endswith]. rewrite IH. by destruct (String.eqb _ _).
Qed.

(** A normalised path ends with a separator, so normalising twice changes
    nothing: the orchestrator and the writer both normalise. *)
Lemma with_sep_idem (p : string) : with_sep (with_sep p) = with_sep p.
Proof.
  unfold with_sep.
  destruct (endswith p "\" || endswith p "/") eqn:E; cbn [negb].
  - by rewrite E.
  - by rewrite (endswith_app p "/"), orb_true_r.
Qed.

Lemma string_length_app (s t : string) :
  String.length (s +:+ t) = String.length s + String.length t.
Proof. induction s as [|c s IH]; simpl; [done|]. by rewrite IH. Qed.



(** ** The reader *)

(** What [_load_dependencies] does with the selector ["dependencies"]. *)
Lemma load_required (project : dict) :
  _load_dependencies project "dependencies" =
  match dict_get "dependencies" project with
  | Some l => Return l
  | None =>
      Raise (ValueError
        "pyproject.toml's project table does not include {dep_table} sub-table.")
  end.
Proof.
  unfold _load_dependencies, dict_contains, dict_getitem. simpl.
  by destruct (dict_get "dependencies" project).
Qed.

(** What [_load_dependencies] does with any other selector when the
    [optional-dependencies] key holds a table. *)
Lemma load_optional (project od : dict) (g : string) :
  g <> "dependencies" ->
  dict_get "optional-dependencies" project = Some (VDict od) ->
  _load_dependencies project g =
  match dict_get g od with
  | Some l => Return l
  | None => Raise (ValueError "Something.")
  end.
Proof.
  intros Hg Hod. unfold _load_dependencies.
  destruct (String.eqb_spec g "dependencies") as [|_]; [done|].
  unfold dict_contains, dict_getitem. rewrite Hod. simpl.
  unfold dict_contains, dict_getitem. by destruct (dict_get g od).
Qed.

(** C1, as amended: a stored list comes back exactly as it is stored (same
    elements, same order, nothing removed).  The selector ["dependencies"]
    returns the list under the [dependencies] key of the project table, and
    any other selector [g] returns the list stored under [g] in the
    [optional-dependencies] table. *)
Theorem load_dependencies_exact (project : dict) :
  (forall l, dict_get "dependencies" project = Some l ->
     _load_dependencies project "dependencies" = Return l)
  /\ (forall g od l,
        g <> "dependencies" ->
        dict_get "optional-dependencies" project = Some (VDict od) ->
        dict_get g od = Some l ->
        _load_dependencies project g = Return l).
Proof.
  split.
  - intros l Hl. by rewrite load_required, Hl.
  - intros g od l Hg Hod Hl. by rewrite (load_optional _ od), Hl.
Qed.

Lemma load_dependencies_exact_witness :
  _load_dependencies Sample.manifest_project "dependencies"
    = Return (VList [VStr "numpy"; VStr "pandas"])
  /\ _load_dependencies Sample.manifest_project "docs"
    = Return (VList [VStr "sphinx"]).
Proof.
  destruct (load_dependencies_exact Sample.manifest_project) as [Hreq Hopt].
  split.
  - apply Hreq. reflexivity.
  - apply (Hopt "docs" [("test", VList [VStr "pytest"]); ("docs", VList [VStr "sphinx"])]).
    + discriminate.
    + reflexivity.
    + reflexivity.
Defined.

(** C1 as first stated fails for an optional group that is itself named
    [dependencies]: the selector then means the required list, which is what
    comes back. *)
Lemma load_dependencies_optional_named_dependencies :
  let od := [("dependencies", VList [VStr "pytest"])] in
  let project :=
    [("dependencies", VList [VStr "numpy"]); ("optional-dependencies", VDict od)] in
  dict_get "optional-dependencies" project = Some (VDict od)
  /\ dict_get "dependencies" od = Some (VList [VStr "pytest"])
  /\ _load_dependencies project "dependencies" <> Return (VList [VStr "pytest"]).
Proof. repeat split. discriminate. Qed.

(** Without a required list the same selector raises. *)
Example load_dependencies_optional_only :
  _load_dependencies
    [("optional-dependencies", VDict [("dependencies", VList [VStr "pytest"])])]
    "dependencies"
  = Raise (ValueError
      "pyproject.toml's project table does not include {dep_table} sub-table.").
Proof. reflexivity. Qed.

(** C4: a selector that is missing from the [optional-dependencies] table
    raises a [ValueError], but its message is the text [Something.], which
    says nothing about a group that was not found. *)
Theorem load_dependencies_missing_group_message :
  _load_dependencies
    [("optional-dependencies", VDict [("test", VList [VStr "pytest"])])] "docs"
  = Raise (ValueError "Something.")
  /\ str_contains "Something." "not found" = false
  /\ str_contains "Something." "docs" = false.
Proof. repeat split. Qed.

(** C5: without a [dependencies] key the selector ["dependencies"] raises a
    [ValueError], but the message holds the placeholder [{dep_table}] as it
    is written in the source and names no table. *)
Theorem load_dependencies_missing_table_message :
  exists msg,
    _load_dependencies [("name", VStr "demo")] "dependencies"
      = Raise (ValueError msg)
    /\ str_contains msg "{dep_table}" = true
    /\ str_contains msg "dependencies" = false.
Proof. eexists. repeat split. Qed.

(** ** The writer *)

Section Writer.
Context `{Libraries}.

Lemma ensure_dir_files (p : string) (w : world) :
  files (ensure_dir p w) = files w.
Proof. unfold ensure_dir. by destruct (exists_in p w). Qed.

Lemma ensure_dir_stdout (p : string) (w : world) :
  stdout (ensure_dir p w) = stdout w.
Proof. unfold ensure_dir. by destruct (exists_in p w). Qed.

Lemma ensure_dir_written (p : string) (w : world) :
  written (ensure_dir p w) = written w.
Proof. unfold ensure_dir. by destruct (exists_in p w). Qed.


(** An empty dictionary: the directory is prepared, then the call raises. *)
Lemma write_dependencies_nil (output_path : string) (verbose : bool) (w : world) :
  _write_dependencies [] output_path verbose w =
  (Raise (ValueError "Empty dependency dictionary found."),
   ensure_dir (with_sep output_path) w).
Proof.
  unfold _write_dependencies, bind, os_path_exists, os_makedirs, ensure_dir,
    exists_in, raise, ret.
  destruct (bool_decide _ || bool_decide _) eqn:E; simpl; rewrite ?E; done.
Qed.

(** A dictionary with at least one group: the first one is written. *)
Lemma write_dependencies_cons (g : string) (l : value) (rest : dict)
    (output_path : string) (verbose : bool) (w : world) :
  _write_dependencies ((g, l) :: rest) output_path verbose w =
  (Return (dep_record g l), after_write output_path g l verbose w).
Proof.
  unfold _write_dependencies, after_write, bind, os_path_exists, os_makedirs,
    ensure_dir, exists_in, raise, ret, lift, write_file, print, group_file,
    group_path, group_text, status_line, dict_getitem.
  simpl. rewrite String.eqb_refl.
  destruct (bool_decide _ || bool_decide _) eqn:E; simpl; rewrite ?E;
    destruct verbose; done.
Qed.


Lemma after_write_files (output_path g : string) (l : value)
    (verbose : bool) (w : world) :
  files (after_write output_path g l verbose w)
  = <[group_path output_path g := group_text g l]> (files w).
Proof. unfold after_write. simpl. by rewrite ensure_dir_files. Qed.

Lemma after_write_dirs (output_path g : string) (l : value)
    (verbose : bool) (w : world) :
  dirs (after_write output_path g l verbose w)
  = dirs (ensure_dir (with_sep output_path) w).
Proof. done. Qed.

Lemma after_write_written (output_path g : string) (l : value)
    (verbose : bool) (w : world) :
  written (after_write output_path g l verbose w)
  = (written w ++ [group_file output_path (g, l)])%list.
Proof. unfold after_write. simpl. by rewrite ensure_dir_written. Qed.

Lemma after_write_stdout (output_path g : string) (l : value)
    (verbose : bool) (w : world) :
  stdout (after_write output_path g l verbose w)
  = if verbose then (stdout w ++ [status_line output_path g l])%list
    else stdout w.
Proof. unfold after_write. simpl. by rewrite ensure_dir_stdout. Qed.






End Writer.



(** ** The orchestrator *)

Section Orchestrator.
Context `{Libraries}.
Local Open Scope py_scope.

Lemma group_path_with_sep (output_path g : string) :
  group_path (with_sep output_path) g = group_path output_path g.
Proof. unfold group_path. by rewrite with_sep_idem. Qed.

Lemma after_write_with_sep (output_path g : string) (l : value)
    (verbose : bool) (w : world) :
  after_write (with_sep output_path) g l verbose w
  = after_write output_path g l verbose w.
Proof.
  unfold after_write, group_file, status_line.
  by rewrite !group_path_with_sep, !with_sep_idem.
Qed.



(** The required list, when there is one, is always written. *)
Lemma required_step (project : dict) (output_path : string) (verbose : bool)
    (w : world) :
  (if dict_contains "dependencies" project then
     deps <- lift (_load_dependencies project "dependencies") ;;
     _write_dependencies [("dependencies", deps)] output_path verbose ;;
     ret tt
   else ret tt) w
  = (Return tt,
     foldl (fun w e => after_write output_path e.1 e.2 verbose w) w
       (required_group project)).
Proof.
  unfold required_group, dict_contains. rewrite load_required.
  destruct (dict_get "dependencies" project) as [l|]; [|done].
  unfold bind, lift. by rewrite write_dependencies_cons.
Qed.




End Orchestrator.




(** ** Runs of the program *)

Section Runs.
Context `{Libraries}.
Local Open Scope py_scope.

(** Reading and parsing the manifest, up to the check of the [project] key. *)
Ltac read_manifest Hm :=
  let content := fresh "content" in
  let Hfile := fresh "Hfile" in
  let Hparse := fresh "Hparse" in
  destruct Hm as (content & Hfile & Hparse);
  unfold pyproject_toml_to_environment_file;
  unfold bind at 1; unfold read_file; rewrite Hfile;
  unfold bind at 1; unfold lift at 1; unfold tomli_load; rewrite Hparse;
  unfold bind at 1; unfold lift at 1.

Lemma project_table_ok (toml project : dict) :
  dict_get "project" toml = Some (VDict project) ->
  project_table toml = Return project.
Proof.
  intros Hp. unfold project_table, dict_contains, dict_getitem.
  by rewrite Hp.
Qed.

(** A run whose manifest fails the check stops there, with the world as it
    was. *)
Lemma run_rejected (input_path output_path dep_type : string) (verbose : bool)
    (w : world) (toml : dict) (e : exn) :
  manifest_at input_path toml w ->
  project_table toml = Raise e ->
  pyproject_toml_to_environment_file input_path output_path dep_type verbose w
  = (Raise e, w).
Proof. intros Hm He. read_manifest Hm. by rewrite He. Qed.

(** C6: loading fails with a [ValueError] when the document has no [project]
    key and when the key holds something else than a table, and it succeeds
    with the project table otherwise; when it fails, the run raises that
    error and has changed nothing. *)
Theorem project_must_be_table (toml : dict) :
  match dict_get "project" toml with
  | Some (VDict project) => project_table toml = Return project
  | _ => exists msg, project_table toml = Raise (ValueError msg)
  end
  /\ forall input_path output_path dep_type verbose w e,
       manifest_at input_path toml w ->
       project_table toml = Raise e ->
       pyproject_toml_to_environment_file
         input_path output_path dep_type verbose w = (Raise e, w).
Proof.
  split.
  - destruct (dict_get "project" toml) as [v|] eqn:Hp.
    + unfold project_table, dict_contains, dict_getitem. rewrite Hp.
      destruct v; simpl; eauto.
    + unfold project_table, dict_contains. rewrite Hp. simpl. eauto.
  - intros. by apply run_rejected with toml.
Qed.

(** In mode ["all"] only the required group can print. *)
Lemma optional_step_quiet (project : dict) (output_path : string) (w : world) :
  stdout
    ((if dict_contains "optional-dependencies" project then
        optional <- lift (dict_getitem project "optional-dependencies") ;;
        keys <- lift (py_keys optional) ;;
        for_each keys (fun optional_dep =>
          deps <- lift (_load_dependencies project optional_dep) ;;
          _write_dependencies [(optional_dep, deps)] output_path false ;;
          ret tt)
      else ret tt) w).2
  = stdout w.
Proof.
  destruct (dict_contains "optional-dependencies" project); [|done].
  unfold bind at 1, lift at 1.
  destruct (dict_getitem project "optional-dependencies") as [optional|e]; [|done].
  unfold bind at 1, lift at 1.
  destruct (py_keys optional) as [keys|e]; [|done].
  revert w. induction keys as [|k keys IH]; intros w; [done|].
  cbn [for_each]. unfold bind at 1. unfold bind at 1, lift at 1.
  destruct (_load_dependencies project k) as [l|e]; [|done].
  unfold bind at 1. rewrite write_dependencies_cons. unfold ret at 1.
  by rewrite IH, after_write_stdout.
Qed.

(** C8: in mode ["all"] the verbose flag reaches the write of the required
    group only: whatever the optional groups are, the run prints the status
    line of the required group when there is one and [verbose] is set, and
    nothing else. *)
Theorem all_mode_prints_required_group_only (input_path output_path : string)
    (verbose : bool) (w : world) (toml project : dict) :
  manifest_at input_path toml w ->
  dict_get "project" toml = Some (VDict project) ->
  stdout (pyproject_toml_to_environment_file
            input_path output_path "all" verbose w).2
  = (stdout w ++
     match dict_get "dependencies" project with
     | Some l => if verbose then [status_line output_path "dependencies" l] else []
     | None => []
     end)%list.
Proof.
  intros Hm Hp. read_manifest Hm. rewrite (project_table_ok _ _ Hp).
  change (String.eqb "all" "all") with true. cbv iota.
  unfold bind at 1. rewrite required_step.
  rewrite optional_step_quiet. unfold required_group.
  destruct (dict_get "dependencies" project) as [l|]; cbn [foldl fst snd].
  - rewrite after_write_with_sep, after_write_stdout.
    destruct verbose; [done|by rewrite app_nil_r].
  - by rewrite app_nil_r.
Qed.








End Runs.

(** ** The program on the sample documents *)

Lemma sample_manifest_at :
  @manifest_at Sample.libraries "proj" Sample.manifest Sample.start.
Proof. exists Sample.manifest_text. split; vm_compute; reflexivity. Defined.


Lemma all_mode_prints_required_group_only_witness :
  stdout (@pyproject_toml_to_environment_file Sample.libraries
            "proj" "out" "all" true Sample.start).2
  = [@status_line Sample.libraries "out" "dependencies"
       (VList [VStr "numpy"; VStr "pandas"])].
Proof.
  rewrite (@all_mode_prints_required_group_only Sample.libraries "proj" "out"
             true Sample.start Sample.manifest Sample.manifest_project).
  - reflexivity.
  - exact sample_manifest_at.
  - reflexivity.
Defined.

Lemma project_must_be_table_witness :
  @pyproject_toml_to_environment_file Sample.libraries
    "flat" "out" "all" true Sample.start
  = (Raise (ValueError
       "Expected pyproject.toml's project table to return dict, but found <class 'str'>."),
     Sample.start).
Proof.
  destruct (@project_must_be_table Sample.libraries Sample.flat) as [_ Hrun].
  apply (Hrun "flat" "out" "all" true Sample.start).
  - exists Sample.flat_text. split; vm_compute; reflexivity.
  - reflexivity.
Defined.

(** A document without the [project] key is refused as well. *)
Example run_without_project :
  (@pyproject_toml_to_environment_file Sample.libraries
     "other" "out" "all" true Sample.start).1
  = Raise (ValueError "Expected pyproject.toml to include a project table.").
Proof. vm_compute. reflexivity. Qed.

(** With a single group selected, only the file of that group is written. *)
Example run_single_group :
  map fst (written (@pyproject_toml_to_environment_file Sample.libraries
                      "proj" "out" "test" true Sample.start).2)
  = ["out/test.yaml"].
Proof. vm_compute. reflexivity. Qed.


(** * Further properties *)

(** ** The reader: when it returns and how it fails *)

(** X1: the reader returns a value exactly when that value is stored where the
    selector points: under the [dependencies] key of the project table for
    the selector ["dependencies"], and under the selector in the
    [optional-dependencies] table for any other selector.  It never makes a
    list up and never falls back from one place to the other. *)
Theorem load_dependencies_returns_iff (project : dict) (dep_type : string)
    (v : value) :
  _load_dependencies project dep_type = Return v
  <-> (dep_type = "dependencies" /\ dict_get "dependencies" project = Some v)
      \/ (dep_type <> "dependencies"
          /\ exists od,
               dict_get "optional-dependencies" project = Some (VDict od)
               /\ dict_get dep_type od = Some v).
Proof.
  destruct (String.eqb_spec dep_type "dependencies") as [->|Hne].
  - rewrite load_required. split.
    + destruct (dict_get "dependencies" project); [|done].
      intros [= ->]. by left.
    + intros [[_ ->]|[Hne _]]; done.
  - split.
    + intros Hret. right. split; [done|].
      unfold _load_dependencies in Hret.
      destruct (String.eqb_spec dep_type "dependencies") as [|_]; [done|].
      unfold dict_contains, dict_getitem in Hret.
      destruct (dict_get "optional-dependencies" project) as [sub|]; [|done].
      simpl in Hret. destruct sub as [s|n|b|l|od]; simpl in Hret; try done.
      * by destruct (str_contains s dep_type).
      * by destruct (existsb (str_eq_value dep_type) l).
      * exists od. split; [done|].
        unfold dict_contains, dict_getitem in Hret.
        destruct (dict_get dep_type od); simpl in Hret; congruence.
    + intros [[Heq _]|[_ (od & Hod & Hv)]]; [done|].
      by rewrite (load_optional _ od), Hv.
Qed.

(** X2: every lookup of the reader is guarded by a membership test: it raises a
    [ValueError] or, on a malformed [optional-dependencies] value, a
    [TypeError], and never a [KeyError] or any other exception. *)
Theorem load_dependencies_failures (project : dict) (dep_type : string) (e : exn) :
  _load_dependencies project dep_type = Raise e ->
  e = TypeError \/ exists msg, e = ValueError msg.
Proof.
  destruct (String.eqb_spec dep_type "dependencies") as [->|Hne].
  - rewrite load_required.
    destruct (dict_get "dependencies" project); [done|]. intros [= <-]. eauto.
  - unfold _load_dependencies, dict_contains, dict_getitem.
    destruct (String.eqb_spec dep_type "dependencies") as [|_]; [done|].
    destruct (dict_get "optional-dependencies" project) as [sub|]; simpl.
    + destruct sub as [s|n|b|l|od]; simpl.
      * destruct (str_contains s dep_type); simpl; intros [= <-]; eauto.
      * intros [= <-]. eauto.
      * intros [= <-]. eauto.
      * destruct (existsb (str_eq_value dep_type) l); simpl; intros [= <-]; eauto.
      * unfold dict_contains, dict_getitem.
        destruct (dict_get dep_type od); simpl; [done|]. intros [= <-]. eauto.
    + intros [= <-]. eauto.
Qed.

Lemma load_dependencies_failures_witness :
  _load_dependencies Sample.manifest_project "lint"
    = Raise (ValueError "Something.")
  /\ (ValueError "Something." = TypeError
      \/ exists msg, ValueError "Something." = ValueError msg).
Proof.
  split; [reflexivity|].
  apply (load_dependencies_failures Sample.manifest_project "lint").
  reflexivity.
Defined.

(** X3: the reader raises a [TypeError] exactly when the selector is not
    ["dependencies"] and the [optional-dependencies] key holds a number or a
    boolean, a string that contains the selector, or an array that has the
    selector among its elements. *)
Theorem load_dependencies_type_error_iff (project : dict) (dep_type : string) :
  _load_dependencies project dep_type = Raise TypeError
  <-> dep_type <> "dependencies"
      /\ match dict_get "optional-dependencies" project with
         | Some (VInt _) | Some (VBool _) => True
         | Some (VStr s) => str_contains s dep_type = true
         | Some (VList l) => existsb (str_eq_value dep_type) l = true
         | Some (VDict _) | None => False
         end.
Proof.
  destruct (String.eqb_spec dep_type "dependencies") as [->|Hne].
  - rewrite load_required. split; [|by intros [? _]].
    by destruct (dict_get "dependencies" project).
  - unfold _load_dependencies, dict_contains, dict_getitem.
    destruct (String.eqb_spec dep_type "dependencies") as [|_]; [done|].
    destruct (dict_get "optional-dependencies" project) as [sub|]; simpl.
    + destruct sub as [s|n|b|l|od]; simpl.
      * destruct (str_contains s dep_type); simpl; split; try done; by intros [_ ?].
      * done.
      * done.
      * destruct (existsb (str_eq_value dep_type) l); simpl; split; try done;
          by intros [_ ?].
      * unfold dict_contains, dict_getitem.
        destruct (dict_get dep_type od); simpl; split; try done; by intros [_ ?].
    + split; [done|by intros [_ ?]].
Qed.

(** ** The writer: directory, console and path *)

Section WriterMore.
Context `{Libraries}.




(** X5: the verbose flag of the writer changes the console and nothing else:
    the result, the directories, the files and the log of writes are the
    same with and without it; without it nothing is printed, and with it
    exactly one line is printed after a write and none when the call raises
    on an empty dictionary. *)
Theorem write_dependencies_verbose_console_only (deps : dict)
    (output_path : string) (w : world) :
  let loud := _write_dependencies deps output_path true w in
  let quiet := _write_dependencies deps output_path false w in
  loud.1 = quiet.1
  /\ same_disk loud.2 quiet.2
  /\ stdout quiet.2 = stdout w
  /\ stdout loud.2
     = (stdout w ++
        match deps with
        | [] => []
        | (g, l) :: _ => [status_line output_path g l]
        end)%list.
Proof.
  cbn zeta. destruct deps as [|[g l] rest].
  - rewrite !write_dependencies_nil. cbn [fst snd].
    rewrite ensure_dir_stdout, app_nil_r. by repeat split.
  - rewrite !write_dependencies_cons. cbn [fst snd].
    rewrite !after_write_stdout. unfold same_disk.
    rewrite !after_write_files, !after_write_dirs, !after_write_written.
    by repeat split.
Qed.

(** X6: a trailing separator in the output path does not matter: a path that
    does not end in [/] or [\] gives the same call as the path followed by
    [/]. *)
Theorem write_dependencies_trailing_separator (deps : dict)
    (output_path : string) (verbose : bool) (w : world) :
  endswith output_path "\" || endswith output_path "/" = false ->
  _write_dependencies deps (output_path +:+ "/") verbose w
  = _write_dependencies deps output_path verbose w.
Proof.
  intros Hsep.
  assert (with_sep output_path = output_path +:+ "/") as <-
    by (unfold with_sep; by rewrite Hsep).
  unfold _write_dependencies. by rewrite with_sep_idem.
Qed.


End WriterMore.

Lemma write_dependencies_trailing_separator_witness :
  @_write_dependencies Sample.libraries
    [("test", VList [VStr "pytest"])] "out/" true Sample.start
  = @_write_dependencies Sample.libraries
      [("test", VList [VStr "pytest"])] "out" true Sample.start.
Proof.
  apply (@write_dependencies_trailing_separator Sample.libraries
           [("test", VList [VStr "pytest"])] "out" true Sample.start).
  reflexivity.
Defined.


(** ** The orchestrator: failures, modes and what a run can touch *)

Lemma string_app_assoc (a b c : string) : (a +:+ b) +:+ c = a +:+ b +:+ c.
Proof.
  induction a as [|x a IH]; [done|].
  change (String x ((a +:+ b) +:+ c) = String x (a +:+ b +:+ c)).
  by rewrite IH.
Qed.

(** Two strings with suffixes of the same length are equal only when the
    suffixes are. *)
Lemma string_app_inj_suffix (s1 s2 t1 t2 : string) :
  String.length t1 = String.length t2 ->
  s1 +:+ t1 = s2 +:+ t2 -> t1 = t2.
Proof.
  intros Hlen. revert s2. induction s1 as [|c s1 IH]; intros [|d s2] Heq.
  - done.
  - apply (f_equal String.length) in Heq.
    rewrite !string_length_app in Heq. simpl in Heq. lia.
  - apply (f_equal String.length) in Heq.
    rewrite !string_length_app in Heq. simpl in Heq. lia.
  - simpl in Heq. injection Heq as _ Heq. by apply (IH s2).
Qed.

(** The manifest is not the file of any group: the names end differently. *)
Lemma manifest_path_not_group (input_path output_path g : string) :
  manifest_path input_path <> group_path output_path g.
Proof.
  unfold manifest_path, group_path. intros Heq.
  change "pyproject.toml" with ("pyproject" +:+ ".toml") in Heq.
  rewrite <- !string_app_assoc in Heq.
  by apply string_app_inj_suffix in Heq.
Qed.

Section RunsMore.
Context `{Libraries}.
Local Open Scope py_scope.

(** The orchestrator, step by step. *)
Lemma run_cases (input_path output_path dep_type : string) (verbose : bool)
    (w : world) :
  pyproject_toml_to_environment_file input_path output_path dep_type verbose w
  = match files w !! manifest_path input_path with
    | None => (Raise (FileNotFoundError (manifest_path input_path)), w)
    | Some content =>
        match tomli_loads content with
        | None => (Raise TOMLDecodeError, w)
        | Some toml =>
            match project_table toml with
            | Raise e => (Raise e, w)
            | Return project =>
                write_requested project (with_sep output_path) dep_type verbose w
            end
        end
    end.
Proof.
  unfold pyproject_toml_to_environment_file, manifest_path.
  unfold bind at 1. unfold read_file.
  destruct (files w !! (with_sep input_path +:+ "pyproject.toml")); [|done].
  unfold bind at 1. unfold lift at 1. unfold tomli_load.
  destruct (tomli_loads s); [|done].
  unfold bind at 1. unfold lift at 1.
  by destruct (project_table l).
Qed.

(** One selected group: the reader, then the writer without the flag. *)
Lemma write_requested_single (project : dict) (output_path dep_type : string)
    (verbose : bool) (w : world) :
  dep_type <> "all" ->
  write_requested project output_path dep_type verbose w
  = match _load_dependencies project dep_type with
    | Return l => (Return tt, after_write output_path dep_type l false w)
    | Raise e => (Raise e, w)
    end.
Proof.
  intros Hmode. unfold write_requested.
  destruct (String.eqb_spec dep_type "all") as [|_]; [done|].
  unfold bind at 1. unfold lift at 1.
  destruct (_load_dependencies project dep_type) as [l|e]; [|done].
  unfold bind. by rewrite write_dependencies_cons.
Qed.

(** X8: a manifest that is not there or that is not valid TOML stops the run
    with [FileNotFoundError] or [TOMLDecodeError], in every mode, before
    anything is created, written or printed. *)
Theorem run_unreadable_manifest (input_path output_path dep_type : string)
    (verbose : bool) (w : world) :
  let run :=
    pyproject_toml_to_environment_file input_path output_path dep_type verbose w in
  match files w !! (with_sep input_path +:+ "pyproject.toml") with
  | None =>
      run = (Raise (FileNotFoundError (with_sep input_path +:+ "pyproject.toml")), w)
  | Some content =>
      tomli_loads content = None -> run = (Raise TOMLDecodeError, w)
  end.
Proof.
  cbn zeta. rewrite run_cases. unfold manifest_path.
  destruct (files w !! (with_sep input_path +:+ "pyproject.toml")); [|done].
  by intros ->.
Qed.



(** X11: with one group selected the verbose flag is not used at all: the run is
    the same with and without it, and it never prints. *)
Theorem single_mode_ignores_verbose (input_path output_path dep_type : string)
    (verbose : bool) (w : world) :
  dep_type <> "all" ->
  pyproject_toml_to_environment_file input_path output_path dep_type true w
  = pyproject_toml_to_environment_file input_path output_path dep_type false w
  /\ stdout (pyproject_toml_to_environment_file
               input_path output_path dep_type verbose w).2 = stdout w.
Proof.
  intros Hmode. rewrite !run_cases.
  destruct (files w !! manifest_path input_path) as [content|]; [|done].
  destruct (tomli_loads content) as [toml|]; [|done].
  destruct (project_table toml) as [project|e']; [|done].
  rewrite !write_requested_single by done.
  destruct (_load_dependencies project dep_type); [|done].
  split; [done|]. cbn [snd]. by rewrite after_write_stdout.
Qed.

(** Mode ["all"]: the required group, then the loop over the optional ones. *)
Lemma write_requested_all (project : dict) (output_path : string)
    (verbose : bool) (w : world) :
  write_requested project output_path "all" verbose w
  = (if dict_contains "optional-dependencies" project then
       optional <- lift (dict_getitem project "optional-dependencies") ;;
       keys <- lift (py_keys optional) ;;
       for_each keys (fun optional_dep =>
         deps <- lift (_load_dependencies project optional_dep) ;;
         _write_dependencies [(optional_dep, deps)] output_path false ;;
         ret tt)
     else ret tt)
      (foldl (fun w e => after_write output_path e.1 e.2 verbose w) w
         (required_group project)).
Proof.
  unfold write_requested. change (String.eqb "all" "all") with true. cbv iota.
  unfold bind at 1. by rewrite required_step.
Qed.

Lemma run_loaded (input_path output_path dep_type : string) (verbose : bool)
    (w : world) (toml project : dict) :
  manifest_at input_path toml w ->
  dict_get "project" toml = Some (VDict project) ->
  pyproject_toml_to_environment_file input_path output_path dep_type verbose w
  = write_requested project (with_sep output_path) dep_type verbose w.
Proof.
  intros (content & Hfile & Hparse) Hp. rewrite run_cases. unfold manifest_path.
  by rewrite Hfile, Hparse, (project_table_ok _ _ Hp).
Qed.

(** X12: in mode ["all"] a project table with neither a [dependencies] nor an
    [optional-dependencies] key is no error: the run returns and leaves the
    world as it was; not even the output directory is created. *)
Theorem all_mode_nothing_to_write (input_path output_path : string)
    (verbose : bool) (w : world) (toml project : dict) :
  manifest_at input_path toml w ->
  dict_get "project" toml = Some (VDict project) ->
  dict_get "dependencies" project = None ->
  dict_get "optional-dependencies" project = None ->
  pyproject_toml_to_environment_file input_path output_path "all" verbose w
  = (Return tt, w).
Proof.
  intros Hm Hp Hreq Hopt. rewrite (run_loaded _ _ _ _ _ _ _ Hm Hp).
  rewrite write_requested_all. unfold required_group, dict_contains.
  by rewrite Hreq, Hopt.
Qed.






End RunsMore.

(** ** What any run can touch *)

Section Footprint.
Context `{Libraries}.
Local Open Scope py_scope.

Lemma wrote_groups_only_refl (output_path : string) (w : world) :
  wrote_groups_only output_path w w.
Proof.
  split; [|done]. exists []. split; [by rewrite app_nil_r|]. apply Forall_nil_2.
Qed.

Lemma wrote_groups_only_trans (output_path : string) (w1 w2 w3 : world) :
  wrote_groups_only output_path w1 w2 ->
  wrote_groups_only output_path w2 w3 ->
  wrote_groups_only output_path w1 w3.
Proof.
  intros [(new1 & Hw1 & Hg1) Hf1] [(new2 & Hw2 & Hg2) Hf2]. split.
  - exists (new1 ++ new2)%list. split.
    + by rewrite Hw2, Hw1, <- app_assoc.
    + by apply Forall_app.
  - intros p Hp. by rewrite Hf2, Hf1.
Qed.

Lemma wrote_groups_only_after_write (output_path g : string) (l : value)
    (verbose : bool) (w : world) :
  wrote_groups_only output_path w
    (after_write (with_sep output_path) g l verbose w).
Proof.
  rewrite after_write_with_sep. split.
  - exists [group_file output_path (g, l)]. split.
    + apply after_write_written.
    + apply Forall_singleton. by exists g, l.
  - intros p Hp. rewrite after_write_files. apply lookup_insert_ne.
    intros Heq. by apply (Hp g).
Qed.

Lemma wrote_groups_only_loop (project : dict) (output_path : string)
    (keys : list string) (w : world) :
  wrote_groups_only output_path w
    (for_each keys (fun optional_dep =>
       deps <- lift (_load_dependencies project optional_dep) ;;
       _write_dependencies [(optional_dep, deps)] (with_sep output_path) false ;;
       ret tt) w).2.
Proof.
  revert w. induction keys as [|k keys IH]; intros w.
  - apply wrote_groups_only_refl.
  - cbn [for_each]. unfold bind at 1. unfold bind at 1, lift at 1.
    destruct (_load_dependencies project k) as [l|e].
    + unfold bind at 1. rewrite write_dependencies_cons. unfold ret at 1.
      eapply wrote_groups_only_trans; [|apply IH].
      apply wrote_groups_only_after_write.
    + apply wrote_groups_only_refl.
Qed.

Lemma wrote_groups_only_requested (project : dict) (output_path dep_type : string)
    (verbose : bool) (w : world) :
  wrote_groups_only output_path w
    (write_requested project (with_sep output_path) dep_type verbose w).2.
Proof.
  destruct (String.eqb_spec dep_type "all") as [->|Hmode].
  - rewrite write_requested_all.
    eapply (wrote_groups_only_trans _ _
              (foldl (fun w e => after_write (with_sep output_path) e.1 e.2 verbose w)
                 w (required_group project))).
    + unfold required_group.
      destruct (dict_get "dependencies" project) as [l|]; cbn [foldl fst snd].
      * apply wrote_groups_only_after_write.
      * apply wrote_groups_only_refl.
    + destruct (dict_contains "optional-dependencies" project);
        [|apply wrote_groups_only_refl].
      unfold bind at 1, lift at 1.
      destruct (dict_getitem project "optional-dependencies") as [optional|e];
        [|apply wrote_groups_only_refl].
      unfold bind at 1, lift at 1.
      destruct (py_keys optional) as [keys|e]; [|apply wrote_groups_only_refl].
      apply wrote_groups_only_loop.
  - rewrite write_requested_single by done.
    destruct (_load_dependencies project dep_type) as [l|e].
    + apply wrote_groups_only_after_write.
    + apply wrote_groups_only_refl.
Qed.

(** Every run, in every mode and whether it returns or raises, writes only
    files of groups under the output path. *)
Lemma run_wrote_groups_only (input_path output_path dep_type : string)
    (verbose : bool) (w : world) :
  wrote_groups_only output_path w
    (pyproject_toml_to_environment_file
       input_path output_path dep_type verbose w).2.
Proof.
  rewrite run_cases.
  destruct (files w !! manifest_path input_path) as [content|];
    [|apply wrote_groups_only_refl].
  destruct (tomli_loads content) as [toml|]; [|apply wrote_groups_only_refl].
  destruct (project_table toml) as [project|e]; [|apply wrote_groups_only_refl].
  apply wrote_groups_only_requested.
Qed.


(** X16: no run modifies the manifest it reads: after the run the file
    [pyproject.toml] of the input path is what it was, even when the output
    path is the input path. *)
Theorem run_keeps_manifest (input_path output_path dep_type : string)
    (verbose : bool) (w : world) :
  files (pyproject_toml_to_environment_file
           input_path output_path dep_type verbose w).2
    !! (with_sep input_path +:+ "pyproject.toml")
  = files w !! (with_sep input_path +:+ "pyproject.toml").
Proof.
  destruct (run_wrote_groups_only input_path output_path dep_type verbose w)
    as [_ Hfiles].
  apply Hfiles. intros g. apply manifest_path_not_group.
Qed.

End Footprint.

(** ** The console flag and the disk; running twice *)

Section Repeat.
Context `{Libraries}.
Local Open Scope py_scope.

Lemma same_disk_refl (w : world) : same_disk w w.
Proof. by repeat split. Qed.

Lemma same_disk_ensure_dir (p : string) (w1 w2 : world) :
  same_disk w1 w2 -> same_disk (ensure_dir p w1) (ensure_dir p w2).
Proof.
  intros (Hd & Hf & Hw). unfold ensure_dir, exists_in. rewrite Hd, Hf.
  destruct (bool_decide _ || bool_decide _); unfold same_disk; simpl;
    by rewrite ?Hd, ?Hf, ?Hw.
Qed.

Lemma same_disk_after_write (output_path g : string) (l : value)
    (v1 v2 : bool) (w1 w2 : world) :
  same_disk w1 w2 ->
  same_disk (after_write output_path g l v1 w1) (after_write output_path g l v2 w2).
Proof.
  intros Hsame.
  destruct (same_disk_ensure_dir (with_sep output_path) w1 w2 Hsame)
    as (Hd & Hf & Hw).
  unfold same_disk, after_write. simpl. by rewrite Hd, Hf, Hw.
Qed.

Lemma bind_lift {A B} (o : outcome A) (k : A -> M B) (w : world) :
  bind (lift o) k w
  = match o with
    | Return a => k a w
    | Raise e => (Raise e, w)
    end.
Proof. by destruct o. Qed.

Lemma for_each_cons {A} (x : A) (xs : list A) (body : A -> M unit) (w : world) :
  for_each (x :: xs) body w
  = match body x w with
    | (Return _, w') => for_each xs body w'
    | (Raise e, w') => (Raise e, w')
    end.
Proof. cbn [for_each]. unfold bind. by destruct (body x w) as [[[]|e] w']. Qed.

(** One turn of the loop over the optional groups, whatever the group. *)
Lemma optional_body (project : dict) (output_path k : string) (w : world) :
  (deps <- lift (_load_dependencies project k) ;;
   _write_dependencies [(k, deps)] output_path false ;;
   ret tt) w
  = match _load_dependencies project k with
    | Return l => (Return tt, after_write output_path k l false w)
    | Raise e => (Raise e, w)
    end.
Proof.
  unfold bind at 1, lift at 1.
  destruct (_load_dependencies project k) as [l|e]; [|done].
  unfold bind. by rewrite write_dependencies_cons.
Qed.

Lemma same_disk_loop (project : dict) (output_path : string)
    (keys : list string) (w1 w2 : world) :
  same_disk w1 w2 ->
  let body := fun optional_dep =>
    deps <- lift (_load_dependencies project optional_dep) ;;
    _write_dependencies [(optional_dep, deps)] output_path false ;;
    ret tt in
  (for_each keys body w1).1 = (for_each keys body w2).1
  /\ same_disk (for_each keys body w1).2 (for_each keys body w2).2.
Proof.
  cbn zeta. revert w1 w2. induction keys as [|k keys IH]; intros w1 w2 Hsame.
  - done.
  - rewrite !for_each_cons. cbv beta. rewrite !optional_body.
    destruct (_load_dependencies project k) as [l|e]; [|done].
    apply IH. by apply same_disk_after_write.
Qed.

(** The optional groups are handled alike in two worlds with the same disk. *)
Lemma same_disk_optional (project : dict) (output_path : string)
    (w1 w2 : world) :
  same_disk w1 w2 ->
  let block :=
    (if dict_contains "optional-dependencies" project then
       optional <- lift (dict_getitem project "optional-dependencies") ;;
       keys <- lift (py_keys optional) ;;
       for_each keys (fun optional_dep =>
         deps <- lift (_load_dependencies project optional_dep) ;;
         _write_dependencies [(optional_dep, deps)] output_path false ;;
         ret tt)
     else ret tt) in
  (block w1).1 = (block w2).1 /\ same_disk (block w1).2 (block w2).2.
Proof.
  intros Hsame. cbn zeta.
  destruct (dict_contains "optional-dependencies" project); [|done].
  rewrite !bind_lift.
  destruct (dict_getitem project "optional-dependencies") as [optional|e];
    [|done].
  rewrite !bind_lift.
  destruct (py_keys optional) as [keys|e]; [|done].
  by apply same_disk_loop.
Qed.

Lemma same_disk_requested (project : dict) (output_path dep_type : string)
    (w : world) :
  (write_requested project output_path dep_type true w).1
  = (write_requested project output_path dep_type false w).1
  /\ same_disk (write_requested project output_path dep_type true w).2
       (write_requested project output_path dep_type false w).2.
Proof.
  destruct (String.eqb_spec dep_type "all") as [->|Hmode].
  - rewrite !write_requested_all. apply same_disk_optional.
    unfold required_group.
    destruct (dict_get "dependencies" project); cbn [foldl fst snd].
    + apply same_disk_after_write, same_disk_refl.
    + apply same_disk_refl.
  - rewrite !write_requested_single by done.
    destruct (_load_dependencies project dep_type); split; try done;
      apply same_disk_refl.
Qed.

(** X17: in every mode the verbose flag of the orchestrator changes the console
    only: with and without it the run returns or raises the same, and
    leaves the same directories, the same files and the same log of
    writes. *)
Theorem run_verbose_console_only (input_path output_path dep_type : string)
    (w : world) :
  let loud :=
    pyproject_toml_to_environment_file input_path output_path dep_type true w in
  let quiet :=
    pyproject_toml_to_environment_file input_path output_path dep_type false w in
  loud.1 = quiet.1
  /\ dirs loud.2 = dirs quiet.2
  /\ files loud.2 = files quiet.2
  /\ written loud.2 = written quiet.2.
Proof.
  cbn zeta. rewrite !run_cases.
  destruct (files w !! manifest_path input_path) as [content|]; [|done].
  destruct (tomli_loads content) as [toml|]; [|done].
  destruct (project_table toml) as [project|e]; [|done].
  apply same_disk_requested.
Qed.







End Repeat.

(** ** The further properties on the sample documents *)

Lemma run_unreadable_manifest_witness :
  @pyproject_toml_to_environment_file Cases.libraries
    "broken" "out" "all" true Cases.start
  = (Raise TOMLDecodeError, Cases.start).
Proof.
  pose proof (@run_unreadable_manifest Cases.libraries
                "broken" "out" "all" true Cases.start) as Hrun.
  cbn zeta in Hrun.
  assert (files Cases.start !! (with_sep "broken" +:+ "pyproject.toml")
          = Some Cases.broken_text) as Hfile by (vm_compute; reflexivity).
  rewrite Hfile in Hrun. apply Hrun. reflexivity.
Defined.

(** A manifest that is not there. *)
Example run_without_manifest :
  @pyproject_toml_to_environment_file Cases.libraries
    "nowhere" "out" "all" true Cases.start
  = (Raise (FileNotFoundError "nowhere/pyproject.toml"), Cases.start).
Proof. vm_compute. reflexivity. Qed.



Lemma single_mode_ignores_verbose_witness :
  @pyproject_toml_to_environment_file Sample.libraries
    "proj" "out" "test" true Sample.start
  = @pyproject_toml_to_environment_file Sample.libraries
      "proj" "out" "test" false Sample.start.
Proof.
  apply (@single_mode_ignores_verbose Sample.libraries
           "proj" "out" "test" true Sample.start).
  discriminate.
Defined.

Lemma all_mode_nothing_to_write_witness :
  @pyproject_toml_to_environment_file Cases.libraries
    "bare" "out" "all" true Cases.start
  = (Return tt, Cases.start).
Proof.
  apply (@all_mode_nothing_to_write Cases.libraries "bare" "out" true
           Cases.start Cases.bare Cases.bare_project).
  - exists Cases.bare_text. split; vm_compute; reflexivity.
  - reflexivity.
  - reflexivity.
  - reflexivity.
Defined.



